(** * The MLflow dark-theme hook

    A shallow embedding of
    [mlflow/server/js/src/common/hooks/useMLflowDarkTheme.tsx].

    The hook keeps one boolean in React state, initialises it from
    [localStorage] and the [prefers-color-scheme] media query, and
    mirrors it to a class of [document.body] and to [localStorage] in an
    effect whose dependency array is [[isDarkTheme]].

    The browser is an explicit [World] (storage as a finite map, the
    class list as a finite set, the media query as a function) together
    with the log of every host call the hook made.  The two React
    primitives the hook uses, [useState] with a lazy initialiser and
    [useEffect] with a dependency array, are modelled by a small render
    monad over the hook's memory cells. *)

From stdpp Require Import gmap strings list fin_maps.
From Stdlib Require Import Ascii.

Local Open Scope string_scope.
Local Open Scope list_scope.

(** ** A state monad, with stdpp's notations *)

Definition State (S A : Type) : Type := S → A * S.

#[global] Instance state_ret {S} : MRet (State S) := λ A a s, (a, s).
#[global] Instance state_bind {S} : MBind (State S) :=
  λ A B k m s, let '(a, s') := m s in k a s'.

Definition exec {S A} (m : State S A) (s : S) : S := (m s).2.
Definition eval {S A} (m : State S A) (s : S) : A := (m s).1.

(** ** The host environment *)

(** Host calls, in the order they were made. [RemoveItem] and [Clear]
    belong to the Storage interface although the hook never calls them. *)
Inductive event : Type :=
| GetItem (key : string)
| SetItem (key value : string)
| RemoveItem (key : string)
| Clear
| ClassListToggle (token : string) (force : bool)
| MatchMedia (query : string).

Record World : Type := mkWorld {
  localStorage : gmap string string;   (* window.localStorage *)
  bodyClassList : gset string;         (* document.body.classList *)
  mediaMatches : string → bool;        (* window.matchMedia(q).matches *)
  log : list event
}.

Abbreviation M := (State World).

Definition emit (e : event) (w : World) : World :=
  mkWorld (localStorage w) (bodyClassList w) (mediaMatches w) (log w ++ [e]).

Definition localStorage_getItem (key : string) : M (option string) :=
  λ w, (localStorage w !! key, emit (GetItem key) w).

Definition localStorage_setItem (key value : string) : M unit :=
  λ w, (tt, emit (SetItem key value)
              (mkWorld (<[key := value]> (localStorage w))
                       (bodyClassList w) (mediaMatches w) (log w))).

Definition localStorage_removeItem (key : string) : M unit :=
  λ w, (tt, emit (RemoveItem key)
              (mkWorld (delete key (localStorage w))
                       (bodyClassList w) (mediaMatches w) (log w))).

Definition localStorage_clear : M unit :=
  λ w, (tt, emit Clear (mkWorld ∅ (bodyClassList w) (mediaMatches w) (log w))).

(** [classList.toggle(token, force)]: adds the token when [force] is
    true, removes it otherwise, and returns [force]. *)
Definition classList_toggle (token : string) (force : bool) : M bool :=
  λ w, (force, emit (ClassListToggle token force)
                 (mkWorld (localStorage w)
                          (if force then {[token]} ∪ bodyClassList w
                           else bodyClassList w ∖ {[token]})
                          (mediaMatches w) (log w))).

Definition window_matchMedia (query : string) : M bool :=
  λ w, (mediaMatches w query, emit (MatchMedia query) w).

(** [x === 'lit'] for the [string | null] that [getItem] returns. *)
Definition strict_eq (x : option string) (lit : string) : bool :=
  match x with
  | Some s => String.eqb s lit
  | None => false
  end.

(** ** React: state cell, effect cell, render and commit *)

(** [React.SetStateAction<S>] is [S | ((prev: S) => S)]. *)
Inductive SetStateAction (S : Type) : Type :=
| Value (v : S)
| Updater (f : S → S).
Arguments Value {S} v.
Arguments Updater {S} f.

Definition basicStateReducer {S} (state : S) (action : SetStateAction S) : S :=
  match action with
  | Value v => v
  | Updater f => f state
  end.

(** The hook's memory: the [useState] cell and the dependency array the
    [useEffect] cell saw at the last render. Both are empty before the
    first render. *)
Record Fiber : Type := mkFiber {
  memoizedState : option bool;
  memoizedDeps : option (list bool)
}.

Definition unmounted : Fiber := mkFiber None None.

Definition Dispatch : Type := SetStateAction bool → Fiber → Fiber.

(** The setter [useState] hands out: the action is applied to the cell;
    the scheduler then renders the hook again (see [step]). *)
Definition dispatchSetState : Dispatch :=
  λ action f,
    mkFiber ((λ s, basicStateReducer s action) <$> memoizedState f)
            (memoizedDeps f).

Record RenderCtx : Type := mkCtx {
  fiber : Fiber;
  world : World;
  pendingEffects : list (M unit)
}.

Abbreviation Render := (State RenderCtx).

(** [useState(() => init)]: the initialiser runs only when the cell is
    empty, i.e. at the first render. *)
Definition useState (initialState : M bool) : Render (bool * Dispatch) :=
  λ ctx,
    match memoizedState (fiber ctx) with
    | Some s => ((s, dispatchSetState), ctx)
    | None =>
        let '(s, w) := initialState (world ctx) in
        ((s, dispatchSetState),
         mkCtx (mkFiber (Some s) (memoizedDeps (fiber ctx))) w
               (pendingEffects ctx))
    end.

(** Dependency arrays are compared element by element with [Object.is];
    there is no previous array at the first render. *)
Definition areHookInputsEqual (nextDeps : list bool)
    (prevDeps : option (list bool)) : bool :=
  match prevDeps with
  | Some prev => bool_decide (prev = nextDeps)
  | None => false
  end.

(** [useEffect(effect, deps)]: the effect is queued for the commit when
    the dependency array differs from the one of the last render. *)
Definition useEffect (effect : M unit) (deps : list bool) : Render unit :=
  λ ctx,
    if areHookInputsEqual deps (memoizedDeps (fiber ctx)) then (tt, ctx)
    else (tt, mkCtx (mkFiber (memoizedState (fiber ctx)) (Some deps))
                    (world ctx) (pendingEffects ctx ++ [effect])).

(** ** The hook *)

Definition darkModePrefLocalStorageKey : string := "_mlflow_dark_mode_toggle_enabled".
Definition darkModeBodyClassName : string := "dark-mode".

(** Nested style object: selector, nested selector, declarations. *)
Definition darkModeCSSStyles : list (string * list (string * list (string * string))) :=
  [("body", [("&." +:+ darkModeBodyClassName, [("colorScheme", "dark")])])].

Inductive Element : Type :=
| Global (styles : list (string * list (string * list (string * string)))).

Definition DarkModeStylesComponent (_ : unit) : Element := Global darkModeCSSStyles.

(** The function passed to [useState]. *)
Definition initialIsDarkTheme : M bool :=
  stored ← localStorage_getItem darkModePrefLocalStorageKey;
  if strict_eq stored "true" then mret true
  else
    matches ← window_matchMedia "(prefers-color-scheme: dark)";
    mret (matches || false).

(** The function passed to [useEffect]. *)
Definition syncEffect (isDarkTheme : bool) : M unit :=
  _ ← classList_toggle darkModeBodyClassName isDarkTheme;
  localStorage_setItem darkModePrefLocalStorageKey
    (if isDarkTheme then "true" else "false").

Definition useMLflowDarkTheme : Render (bool * Dispatch * (unit → Element)) :=
  '(isDarkTheme, setIsDarkTheme) ← useState initialIsDarkTheme;
  _ ← useEffect (syncEffect isDarkTheme) [isDarkTheme];
  mret (isDarkTheme, setIsDarkTheme, DarkModeStylesComponent).

(** ** The mounted hook as a transition system *)

Record Sys : Type := mkSys {
  sys_fiber : Fiber;
  sys_world : World
}.

(** One render of the hook followed by the commit, which runs the queued
    effects in order. *)
Definition renderRoot (s : Sys) : (bool * Dispatch * (unit → Element)) * Sys :=
  let '(r, ctx) := useMLflowDarkTheme (mkCtx (sys_fiber s) (sys_world s) []) in
  (r, mkSys (fiber ctx)
            (foldl (λ w (effect : M unit), exec effect w) (world ctx)
                   (pendingEffects ctx))).

(** The browser before the hook is first rendered. *)
Record Host : Type := mkHost {
  host_storage : gmap string string;
  host_classList : gset string;
  host_media : string → bool
}.

Definition boot (h : Host) : World :=
  mkWorld (host_storage h) (host_classList h) (host_media h) [].

Definition mount (h : Host) : Sys := (renderRoot (mkSys unmounted (boot h))).2.

(** The setter the caller holds: the second component of the tuple the
    hook returns. *)
Definition returnedSetter (s : Sys) : Dispatch := (renderRoot s).1.1.2.

Inductive op : Type :=
| SetIsDarkTheme (action : SetStateAction bool)   (* the caller uses the setter *)
| Batch (actions : list (SetStateAction bool))    (* several calls in one tick *)
| Rerender                                        (* the parent renders again *)
| SystemPreferenceChange (media : string → bool). (* the user changes the OS setting *)

(** A call of the returned setter made on its own is followed by its
    render and commit. Calls made in the same tick are applied to the
    state cell in order, each updater seeing the result of the call
    before it, and are followed by one render and commit. *)
Definition step (s : Sys) (o : op) : Sys :=
  match o with
  | SetIsDarkTheme action =>
      (renderRoot (mkSys (returnedSetter s action (sys_fiber s)) (sys_world s))).2
  | Batch actions =>
      (renderRoot (mkSys (foldl (λ f action, returnedSetter s action f)
                                (sys_fiber s) actions)
                         (sys_world s))).2
  | Rerender => (renderRoot s).2
  | SystemPreferenceChange media =>
      mkSys (sys_fiber s)
            (mkWorld (localStorage (sys_world s)) (bodyClassList (sys_world s))
                     media (log (sys_world s)))
  end.

Definition run (h : Host) (ops : list op) : Sys := foldl step (mount h) ops.

(** The in-memory ThemePreference. *)
Definition themePreference (s : Sys) : option bool := memoizedState (sys_fiber s).

(** What the initialiser returns in a given browser. *)
Definition initialValue (h : Host) : bool := eval initialIsDarkTheme (boot h).

Definition storedRecord (h : Host) : option string :=
  host_storage h !! darkModePrefLocalStorageKey.

Definition systemPreferenceSignal (h : Host) : bool :=
  host_media h "(prefers-color-scheme: dark)".

Definition encode (b : bool) : string := if b then "true" else "false".

(** The two host calls of one run of the effect, and the host calls of
    the initialiser. *)
Definition syncEvents (b : bool) : list event :=
  [ClassListToggle darkModeBodyClassName b;
   SetItem darkModePrefLocalStorageKey (encode b)].

Definition initEvents (stored : option string) : list event :=
  GetItem darkModePrefLocalStorageKey ::
  (if strict_eq stored "true" then []
   else [MatchMedia "(prefers-color-scheme: dark)"]).


(** The host calls made during one step. *)
Definition emitted (s : Sys) (o : op) : list event :=
  drop (length (log (sys_world s))) (log (sys_world (step s o))).


(** The calls the hook is expected to make: reads of its key and of the
    media query, the toggle of its class, and writes of "true" or
    "false" to its key. *)
Definition hookCall (e : event) : Prop :=
  match e with
  | GetItem key => key = darkModePrefLocalStorageKey
  | SetItem key value =>
      key = darkModePrefLocalStorageKey ∧ (value = "true" ∨ value = "false")
  | ClassListToggle token _ => token = darkModeBodyClassName
  | MatchMedia query => query = "(prefers-color-scheme: dark)"
  | RemoveItem _ | Clear => False
  end.

Definition isRead (e : event) : bool :=
  match e with
  | GetItem _ | MatchMedia _ => true
  | _ => false
  end.

Definition isMatchMedia (e : event) : bool :=
  match e with
  | MatchMedia _ => true
  | _ => false
  end.

Definition isHostChange (o : op) : bool :=
  match o with
  | SystemPreferenceChange _ => true
  | _ => false
  end.

(** The operations of the component itself, host changes left out. *)
Definition componentOps (ops : list op) : list op :=
  List.filter (λ o, negb (isHostChange o)) ops.

(** Everything of a state but the media query of the host. *)
Definition observable (s : Sys) :
    Fiber * gmap string string * gset string * list event :=
  (sys_fiber s, localStorage (sys_world s), bodyClassList (sys_world s),
   log (sys_world s)).

(** The state between two steps: the effect cell has seen the current
    value, the class and the stored record mirror it. *)
Definition settled (b : bool) (s : Sys) : Prop :=
  sys_fiber s = mkFiber (Some b) (Some [b]).

Definition inSync (b : bool) (s : Sys) : Prop :=
  settled b s
  ∧ (darkModeBodyClassName ∈ bodyClassList (sys_world s) ↔ b = true)
  ∧ localStorage (sys_world s) !! darkModePrefLocalStorageKey = Some (encode b).

Definition withStorage (h : Host) (m : gmap string string) : Host :=
  mkHost m (host_classList h) (host_media h).

(** Three browsers used in the examples: a stored "false" with a dark
    system setting, and empty storage with a light or a dark one. *)
Definition hostStoredFalseDark : Host :=
  mkHost {[ darkModePrefLocalStorageKey := "false" ]} ∅ (λ _, true).

Definition hostFreshLight : Host := mkHost ∅ ∅ (λ _, false).

Definition hostFreshDark : Host := mkHost ∅ ∅ (λ _, true).

(** ** Later visits, the history of writes, and the global style *)

(** The browser a later visit (a reload, or a remount of the hook) finds:
    storage is what the earlier run left, the class list and the system
    setting are those of the new page. *)
Definition revisit (s : Sys) (classes : gset string) (media : string → bool) : Host :=
  mkHost (localStorage (sys_world s)) classes media.

(** The values written to storage and the forces passed to the class
    toggle, in the order of the log. *)
Definition storageWrites (l : list event) : list string :=
  omap (λ e, match e with SetItem _ value => Some value | _ => None end) l.

Definition classToggles (l : list event) : list bool :=
  omap (λ e, match e with ClassListToggle _ force => Some force | _ => None end) l.

(** [b; negb b; b; ...], [n] values. *)
Fixpoint alternating (b : bool) (n : nat) : list bool :=
  match n with
  | 0 => []
  | S n => b :: alternating (negb b) n
  end.







(** A browser in which another script has removed the stored record
    and put the class on the body. *)
Definition tamperedWorld : World :=
  mkWorld ∅ {[ darkModeBodyClassName ]} (λ _, false) [].

(** ** Equations of the host calls and of the render *)

Section Equations.

Lemma strict_eq_true (x : option string) (lit : string) :
  strict_eq x lit = true ↔ x = Some lit.
Proof.
  destruct x as [s|]; simpl.
  - rewrite String.eqb_eq. split; congruence.
  - split; discriminate.
Qed.

Lemma strict_eq_other (s lit : string) :
  s ≠ lit → strict_eq (Some s) lit = false.
Proof. intros Hne. simpl. by apply String.eqb_neq. Qed.

Lemma syncEffect_run (b : bool) (w : World) :
  syncEffect b w =
  (tt, mkWorld (<[darkModePrefLocalStorageKey := encode b]> (localStorage w))
               (if b then {[darkModeBodyClassName]} ∪ bodyClassList w
                else bodyClassList w ∖ {[darkModeBodyClassName]})
               (mediaMatches w)
               (log w ++ syncEvents b)).
Proof.
  unfold syncEffect, mbind, state_bind, classList_toggle,
    localStorage_setItem, emit, syncEvents, encode; simpl.
  by rewrite <- app_assoc.
Qed.

Lemma initialIsDarkTheme_run (w : World) :
  initialIsDarkTheme w =
  (if strict_eq (localStorage w !! darkModePrefLocalStorageKey) "true"
   then true else mediaMatches w "(prefers-color-scheme: dark)",
   mkWorld (localStorage w) (bodyClassList w) (mediaMatches w)
           (log w ++ initEvents (localStorage w !! darkModePrefLocalStorageKey))).
Proof.
  unfold initialIsDarkTheme, mbind, state_bind, mret, state_ret,
    localStorage_getItem, window_matchMedia, emit, initEvents; simpl.
  destruct (strict_eq _ _); simpl; [done|].
  by rewrite orb_false_r, <- app_assoc.
Qed.

Lemma renderRoot_mount (w : World) :
  (renderRoot (mkSys unmounted w)).2 =
  mkSys (mkFiber (Some (eval initialIsDarkTheme w))
                 (Some [eval initialIsDarkTheme w]))
        (exec (syncEffect (eval initialIsDarkTheme w))
              (exec initialIsDarkTheme w)).
Proof.
  unfold renderRoot, useMLflowDarkTheme, mbind, state_bind, useState,
    useEffect, eval, exec; simpl.
  by destruct (initialIsDarkTheme w) as [v w'].
Qed.

Lemma renderRoot_update (b : bool) (d : option (list bool)) (w : World) :
  (renderRoot (mkSys (mkFiber (Some b) d) w)).2 =
  if areHookInputsEqual [b] d then mkSys (mkFiber (Some b) d) w
  else mkSys (mkFiber (Some b) (Some [b])) (exec (syncEffect b) w).
Proof.
  unfold renderRoot, useMLflowDarkTheme, mbind, state_bind, useState,
    useEffect; simpl.
  by destruct (areHookInputsEqual [b] d).
Qed.


Lemma returnedSetter_eq (s : Sys) : returnedSetter s = dispatchSetState.
Proof.
  destruct s as [[[b|] d] w];
    unfold returnedSetter, renderRoot, useMLflowDarkTheme, mbind, state_bind,
      useState, useEffect; simpl.
  - by destruct (areHookInputsEqual [b] d).
  - destruct (initialIsDarkTheme w) as [v w']. simpl.
    by destruct (areHookInputsEqual [v] d).
Qed.

Lemma dispatchSetState_batch (actions : list (SetStateAction bool))
    (b : bool) (d : option (list bool)) :
  foldl (λ f action, dispatchSetState action f) (mkFiber (Some b) d) actions
  = mkFiber (Some (foldl basicStateReducer b actions)) d.
Proof.
  revert b. induction actions as [|action actions IH]; intros b; [done|].
  simpl. unfold dispatchSetState at 2. simpl. apply IH.
Qed.

Lemma areHookInputsEqual_single (b b' : bool) :
  areHookInputsEqual [b'] (Some [b]) = bool_decide (b' = b).
Proof. simpl. apply bool_decide_ext. split; congruence. Qed.

End Equations.

(** ** Steps of the mounted hook *)

Section Steps.

Implicit Types (s : Sys) (b : bool) (h : Host) (w : World).

Lemma initialValue_eq h :
  initialValue h =
  if strict_eq (storedRecord h) "true" then true else systemPreferenceSignal h.
Proof.
  unfold initialValue, eval. by rewrite initialIsDarkTheme_run.
Qed.

Lemma mount_eq h :
  mount h =
  mkSys (mkFiber (Some (initialValue h)) (Some [initialValue h]))
        (mkWorld (<[darkModePrefLocalStorageKey := encode (initialValue h)]>
                    (host_storage h))
                 (if initialValue h
                  then {[darkModeBodyClassName]} ∪ host_classList h
                  else host_classList h ∖ {[darkModeBodyClassName]})
                 (host_media h)
                 (initEvents (storedRecord h) ++ syncEvents (initialValue h))).
Proof.
  unfold mount. rewrite renderRoot_mount. fold (initialValue h).
  unfold exec. rewrite syncEffect_run, initialIsDarkTheme_run. simpl.
  reflexivity.
Qed.

Lemma synced_inSync b w :
  inSync b (mkSys (mkFiber (Some b) (Some [b])) (exec (syncEffect b) w)).
Proof.
  unfold exec. rewrite syncEffect_run. split; [done|]. simpl. split.
  - destruct b.
    + split; [done|]. intros _. apply elem_of_union_l. by apply elem_of_singleton.
    + split; [|done]. intros [_ Hn]%elem_of_difference.
      destruct Hn. by apply elem_of_singleton.
  - apply lookup_insert_eq.
Qed.

Lemma mount_inSync h : inSync (initialValue h) (mount h).
Proof. unfold mount. rewrite renderRoot_mount. apply synced_inSync. Qed.

Lemma step_set s b (action : SetStateAction bool) :
  settled b s →
  step s (SetIsDarkTheme action) =
  if bool_decide (basicStateReducer b action = b) then s
  else mkSys (mkFiber (Some (basicStateReducer b action))
                      (Some [basicStateReducer b action]))
             (exec (syncEffect (basicStateReducer b action)) (sys_world s)).
Proof.
  unfold step. rewrite returnedSetter_eq.
  destruct s as [f w]. unfold settled. simpl. intros ->.
  unfold dispatchSetState. simpl.
  rewrite renderRoot_update, areHookInputsEqual_single.
  case_bool_decide as Heq; [by rewrite Heq | done].
Qed.

(** A batch commits as one call of the setter with the composed updater. *)
Lemma step_batch s b (actions : list (SetStateAction bool)) :
  settled b s →
  step s (Batch actions) =
  step s (SetIsDarkTheme (Updater (λ b0, foldl basicStateReducer b0 actions))).
Proof.
  unfold step. rewrite returnedSetter_eq.
  destruct s as [f w]. unfold settled. simpl. intros ->.
  by rewrite dispatchSetState_batch.
Qed.

Lemma step_rerender s b : settled b s → step s Rerender = s.
Proof.
  destruct s as [f w]. unfold settled. simpl. intros ->.
  rewrite renderRoot_update, areHookInputsEqual_single.
  by rewrite bool_decide_eq_true_2.
Qed.

Lemma step_inSync s b (o : op) :
  inSync b s → ∃ b', inSync b' (step s o).
Proof.
  intros (Hs & Hc & Hl). destruct o as [action|actions| |media].
  - rewrite (step_set _ _ _ Hs). case_bool_decide.
    + by exists b.
    + eexists. apply synced_inSync.
  - rewrite (step_batch _ _ _ Hs), (step_set _ _ _ Hs). case_bool_decide.
    + by exists b.
    + eexists. apply synced_inSync.
  - rewrite (step_rerender _ _ Hs). by exists b.
  - exists b. by destruct s.
Qed.

Lemma foldl_inSync (ops : list op) s b :
  inSync b s → ∃ b', inSync b' (foldl step s ops).
Proof.
  revert s b. induction ops as [|o ops IH]; intros s b Hs; simpl.
  - by exists b.
  - destruct (step_inSync _ _ o Hs) as [b' Hb']. by eapply IH.
Qed.

Lemma run_inSync h (ops : list op) : ∃ b, inSync b (run h ops).
Proof. eapply foldl_inSync, mount_inSync. Qed.

Lemma run_snoc h (ops : list op) (o : op) :
  run h (ops ++ [o]) = step (run h ops) o.
Proof. unfold run. by rewrite foldl_app. Qed.


Lemma emitted_app s (o : op) (evs : list event) :
  log (sys_world (step s o)) = log (sys_world s) ++ evs → emitted s o = evs.
Proof. unfold emitted. intros ->. by rewrite drop_app_length. Qed.


(** What one step does to a settled state: either nothing the hook
    can observe, or one run of the effect for the new value. *)
Lemma step_effects s b (o : op) :
  settled b s →
  ∃ b', settled b' (step s o)
    ∧ localStorage (sys_world (step s o)) =
      (if bool_decide (b' = b) then localStorage (sys_world s)
       else <[darkModePrefLocalStorageKey := encode b']>
              (localStorage (sys_world s)))
    ∧ bodyClassList (sys_world (step s o)) =
      (if bool_decide (b' = b) then bodyClassList (sys_world s)
       else if b' then {[darkModeBodyClassName]} ∪ bodyClassList (sys_world s)
       else bodyClassList (sys_world s) ∖ {[darkModeBodyClassName]})
    ∧ log (sys_world (step s o)) =
      log (sys_world s) ++
      (if bool_decide (b' = b) then [] else syncEvents b').
Proof.
  intros Hs.
  assert (Hset : ∀ action : SetStateAction bool,
    ∃ b', settled b' (step s (SetIsDarkTheme action))
      ∧ localStorage (sys_world (step s (SetIsDarkTheme action))) =
        (if bool_decide (b' = b) then localStorage (sys_world s)
         else <[darkModePrefLocalStorageKey := encode b']>
                (localStorage (sys_world s)))
      ∧ bodyClassList (sys_world (step s (SetIsDarkTheme action))) =
        (if bool_decide (b' = b) then bodyClassList (sys_world s)
         else if b' then {[darkModeBodyClassName]} ∪ bodyClassList (sys_world s)
         else bodyClassList (sys_world s) ∖ {[darkModeBodyClassName]})
      ∧ log (sys_world (step s (SetIsDarkTheme action))) =
        log (sys_world s) ++
        (if bool_decide (b' = b) then [] else syncEvents b')).
  { intros action.
    exists (basicStateReducer b action). rewrite (step_set _ _ _ Hs).
    case_bool_decide as Heq.
    + rewrite Heq, app_nil_r. by repeat split.
    + unfold exec. rewrite syncEffect_run. by repeat split. }
  destruct o as [action|actions| |media].
  - apply Hset.
  - rewrite (step_batch _ _ _ Hs). apply Hset.
  - exists b. rewrite (step_rerender _ _ Hs), bool_decide_eq_true_2 by done.
    rewrite app_nil_r. by repeat split.
  - exists b. rewrite bool_decide_eq_true_2 by done. simpl.
    rewrite app_nil_r. by repeat split.
Qed.


End Steps.

(** ** Initialisation *)

(** C1. The initial value: a stored record that is "true" gives true;
    a stored "false" or no record gives the system preference signal, so
    a stored "false" under a dark system setting gives true. The value
    the mounted hook holds is the one the initialiser returned. *)
Theorem initial_value_priority (h : Host) :
  themePreference (mount h) = Some (initialValue h)
  ∧ (storedRecord h = Some "true" → initialValue h = true)
  ∧ (storedRecord h = Some "false" ∨ storedRecord h = None →
     initialValue h = systemPreferenceSignal h)
  ∧ (storedRecord h = Some "false" → systemPreferenceSignal h = true →
     initialValue h = true).
Proof.
  rewrite initialValue_eq. split; [|split; [|split]].
  - rewrite mount_eq. unfold themePreference. simpl.
    by rewrite initialValue_eq.
  - by intros ->.
  - by intros [-> | ->].
  - by intros -> ->.
Qed.

Lemma initial_value_priority_witness :
  storedRecord hostStoredFalseDark = Some "false"
  ∧ systemPreferenceSignal hostStoredFalseDark = true
  ∧ initialValue hostStoredFalseDark = true
  ∧ initialValue hostFreshLight = false.
Proof.
  split; [reflexivity|]. split; [reflexivity|]. split.
  - apply (proj2 (proj2 (proj2 (initial_value_priority hostStoredFalseDark))));
      reflexivity.
  - rewrite (proj1 (proj2 (proj2 (initial_value_priority hostFreshLight))));
      [reflexivity | right; reflexivity].
Defined.

(** C9. The stored record is compared with "true" by strict string
    equality: with any other string under the key ("TRUE", "1", ...) the
    initial value is the system preference signal, and mounting, and
    every run after it, is the same as with the record absent. *)
Theorem non_true_record_treated_as_absent (h : Host) (v : string) :
  v ≠ "true" →
  let stored := withStorage h (<[darkModePrefLocalStorageKey := v]> (host_storage h)) in
  let absent := withStorage h (delete darkModePrefLocalStorageKey (host_storage h)) in
  strict_eq (Some v) "true" = false
  ∧ initialValue stored = systemPreferenceSignal h
  ∧ initialValue absent = systemPreferenceSignal h
  ∧ mount stored = mount absent
  ∧ ∀ ops, run stored ops = run absent ops.
Proof.
  intros Hv stored absent.
  assert (Hs : storedRecord stored = Some v) by apply lookup_insert_eq.
  assert (Ha : storedRecord absent = None) by apply lookup_delete_eq.
  assert (Hiv : initialValue stored = systemPreferenceSignal h).
  { rewrite initialValue_eq, Hs. by rewrite strict_eq_other. }
  assert (Hia : initialValue absent = systemPreferenceSignal h).
  { rewrite initialValue_eq, Ha. done. }
  assert (Hm : mount stored = mount absent).
  { rewrite !mount_eq, Hiv, Hia, Hs, Ha. unfold initEvents.
    rewrite strict_eq_other by done. simpl.
    by rewrite insert_insert_eq, insert_delete_eq. }
  split; [by apply strict_eq_other|]. repeat split; try done.
  intros ops. unfold run. by rewrite Hm.
Qed.

Lemma non_true_record_treated_as_absent_witness :
  "TRUE" ≠ "true"
  ∧ initialValue (withStorage hostFreshLight {[ darkModePrefLocalStorageKey := "TRUE" ]}) = false
  ∧ initialValue (withStorage hostFreshDark {[ darkModePrefLocalStorageKey := "1" ]}) = true.
Proof.
  split; [discriminate|]. split.
  - apply (proj1 (proj2 (non_true_record_treated_as_absent hostFreshLight "TRUE"
                           ltac:(discriminate)))).
  - apply (proj1 (proj2 (non_true_record_treated_as_absent hostFreshDark "1"
                           ltac:(discriminate)))).
Defined.

(** C10. Computing the initial value only reads: the initialiser leaves
    storage and the class list as they were and makes read calls only.
    The first toggle of the class and the first storage write are those
    of the effect run at the initial mount, right after the reads: the
    mount leaves storage as the host's with the key set to the encoding
    of the initial value, and the class list as the host's with the
    dark-mode class added or removed. *)
Theorem initialisation_only_reads (h : Host) :
  let w := exec initialIsDarkTheme (boot h) in
  localStorage w = host_storage h
  ∧ bodyClassList w = host_classList h
  ∧ log w = initEvents (storedRecord h)
  ∧ forallb isRead (log w) = true
  ∧ log (sys_world (mount h)) = log w ++ syncEvents (initialValue h)
  ∧ existsb isRead (syncEvents (initialValue h)) = false
  ∧ localStorage (sys_world (mount h))
    = <[darkModePrefLocalStorageKey := encode (initialValue h)]> (host_storage h)
  ∧ bodyClassList (sys_world (mount h))
    = (if initialValue h then {[darkModeBodyClassName]} ∪ host_classList h
       else host_classList h ∖ {[darkModeBodyClassName]})
  ∧ localStorage (sys_world (mount h)) !! darkModePrefLocalStorageKey
    = Some (if initialValue h then "true" else "false")
  ∧ (darkModeBodyClassName ∈ bodyClassList (sys_world (mount h))
     ↔ initialValue h = true).
Proof.
  destruct (mount_inSync h) as (_ & Hc & Hl).
  unfold exec. rewrite initialIsDarkTheme_run.
  split; [done|]. split; [done|]. split; [done|].
  split; [simpl; unfold initEvents; by destruct (strict_eq _ _)|].
  split; [by rewrite mount_eq|]. split; [done|].
  split; [by rewrite mount_eq|]. split; [by rewrite mount_eq|].
  split; [|exact Hc]. rewrite Hl. by destruct (initialValue h).
Qed.

(** ** The synchronisation effect *)

Section Synchronisation.

Implicit Types (s : Sys) (b : bool) (h : Host).

Lemma set_value_inSync h (ops : list op) (v : bool) :
  inSync v (step (run h ops) (SetIsDarkTheme (Value v))).
Proof.
  destruct (run_inSync h ops) as (b & Hb).
  rewrite (step_set _ b) by apply Hb. simpl.
  case_bool_decide as Heq; [by subst | apply synced_inSync].
Qed.


Lemma step_change h (ops : list op) (o : op) b :
  settled b (run h ops) →
  ∃ b', inSync b' (step (run h ops) o)
    ∧ emitted (run h ops) o = if bool_decide (b' = b) then [] else syncEvents b'.
Proof.
  intros Hb.
  destruct (step_effects _ _ o Hb) as (b' & Hb' & _ & _ & Hlog).
  exists b'. split; [|by apply emitted_app].
  rewrite <- run_snoc in *. destruct (run_inSync h (ops ++ [o])) as (b'' & Hs).
  assert (b'' = b') as ->; [|done].
  destruct Hs as (Hs & _). unfold settled in *. congruence.
Qed.

End Synchronisation.


(** C3. In every state reached after initialisation the dark-mode class
    is on the body exactly when the in-memory value is true, and the
    stored record is the encoding of the in-memory value. Every step
    that changes the value toggles the class and writes the encoding of
    the new value under the key; a step that does not change it makes no
    host call. *)
Theorem display_and_storage_mirror_preference (h : Host) (ops : list op) :
  ∃ b, themePreference (run h ops) = Some b
    ∧ (darkModeBodyClassName ∈ bodyClassList (sys_world (run h ops)) ↔ b = true)
    ∧ localStorage (sys_world (run h ops)) !! darkModePrefLocalStorageKey
      = Some (encode b)
    ∧ ∀ o : op, ∃ b',
        themePreference (step (run h ops) o) = Some b'
        ∧ emitted (run h ops) o
          = (if bool_decide (b' = b) then []
             else [ClassListToggle darkModeBodyClassName b';
                   SetItem darkModePrefLocalStorageKey (encode b')])
        ∧ localStorage (sys_world (step (run h ops) o))
            !! darkModePrefLocalStorageKey = Some (encode b').
Proof.
  destruct (run_inSync h ops) as (b & Hs & Hc & Hl). exists b.
  unfold themePreference. rewrite Hs. repeat split; try done; try apply Hc.
  intros o. destruct (step_change h ops o b Hs) as (b' & (Hs' & _ & Hl') & Hem).
  exists b'. by rewrite Hs'.
Qed.

(** C4. Calling the setter with the same boolean a second time changes
    nothing: storage and the class list, and indeed the whole state with
    its log of host calls, are as the first call left them. *)
Theorem setter_idempotent (h : Host) (ops : list op) (v : bool) :
  let s1 := step (run h ops) (SetIsDarkTheme (Value v)) in
  let s2 := step s1 (SetIsDarkTheme (Value v)) in
  localStorage (sys_world s2) = localStorage (sys_world s1)
  ∧ bodyClassList (sys_world s2) = bodyClassList (sys_world s1)
  ∧ s2 = s1.
Proof.
  intros s1 s2.
  assert (Heq : s2 = s1).
  { subst s2. destruct (set_value_inSync h ops v) as (Hs & _). fold s1 in Hs.
    rewrite (step_set _ v) by done. simpl. by rewrite bool_decide_eq_true_2. }
  by rewrite Heq.
Qed.

(** ** The setter and the returned value *)




(** ** Host calls over a whole run *)

Section Trace.

Implicit Types (s : Sys) (b : bool) (h : Host).

Lemma syncEvents_hookCall b : Forall hookCall (syncEvents b).
Proof.
  unfold syncEvents. apply Forall_cons. split; [done|].
  apply Forall_cons. split; [|by apply Forall_nil].
  split; [done|]. destruct b; [by left | by right].
Qed.

Lemma initEvents_hookCall (stored : option string) :
  Forall hookCall (initEvents stored).
Proof.
  unfold initEvents. destruct (strict_eq _ _); by repeat constructor.
Qed.

(** The calls made after a settled state are runs of the effect: calls
    the hook may make, none of them the media query, and none of them
    touching a key other than the hook's. *)
Lemma foldl_step_calls (ops : list op) s b :
  settled b s →
  ∃ evs, log (sys_world (foldl step s ops)) = log (sys_world s) ++ evs
    ∧ Forall hookCall evs
    ∧ List.filter isMatchMedia evs = []
    ∧ delete darkModePrefLocalStorageKey (localStorage (sys_world (foldl step s ops)))
      = delete darkModePrefLocalStorageKey (localStorage (sys_world s)).
Proof.
  revert s b. induction ops as [|o ops IH]; intros s b Hs; simpl.
  - exists []. by rewrite app_nil_r.
  - destruct (step_effects _ _ o Hs) as (b' & Hs' & Hst & _ & Hlog).
    destruct (IH _ _ Hs') as (evs & Hlog' & Hcalls & Hmedia & Hdel).
    rewrite Hlog', Hlog, Hdel, Hst, <- app_assoc.
    eexists. split; [done|]. case_bool_decide.
    + by repeat split.
    + split; [apply Forall_app; auto using syncEvents_hookCall|].
      split; [by rewrite List.filter_app, Hmedia|]. apply delete_insert_eq.
Qed.

Lemma observable_settled s1 s2 b :
  observable s1 = observable s2 → settled b s1 → settled b s2.
Proof. unfold observable, settled. intros [= <- _ _ _]. done. Qed.

Lemma step_observable s1 s2 b (o : op) :
  settled b s1 → observable s1 = observable s2 → isHostChange o = false →
  observable (step s1 o) = observable (step s2 o).
Proof.
  intros Hs1 Hobs Ho. pose proof (observable_settled _ _ _ Hobs Hs1) as Hs2.
  destruct o as [action|actions| |media]; [| | |done].
  - rewrite (step_set _ _ _ Hs1), (step_set _ _ _ Hs2).
    case_bool_decide; [done|].
    unfold exec. rewrite !syncEffect_run. unfold observable in *. simpl.
    by injection Hobs as _ -> -> ->.
  - rewrite (step_batch _ _ _ Hs1), (step_batch _ _ _ Hs2).
    rewrite (step_set _ _ _ Hs1), (step_set _ _ _ Hs2).
    case_bool_decide; [done|].
    unfold exec. rewrite !syncEffect_run. unfold observable in *. simpl.
    by injection Hobs as _ -> -> ->.
  - by rewrite (step_rerender _ _ Hs1), (step_rerender _ _ Hs2).
Qed.

Lemma step_hostChange s (o : op) :
  isHostChange o = true → observable (step s o) = observable s.
Proof. by destruct o. Qed.

Lemma foldl_componentOps (ops : list op) s1 s2 b :
  settled b s1 → observable s1 = observable s2 →
  observable (foldl step s1 ops) = observable (foldl step s2 (componentOps ops)).
Proof.
  revert s1 s2 b. induction ops as [|o ops IH]; intros s1 s2 b Hs Hobs; [done|].
  destruct (step_effects _ _ o Hs) as (b' & Hs' & _).
  unfold componentOps. simpl. destruct (isHostChange o) eqn:Ho; simpl.
  - eapply IH; [done|]. by rewrite step_hostChange.
  - eapply IH; [done|]. by eapply step_observable.
Qed.

End Trace.

(** C6. The hook never deletes the stored record, and every value it
    writes is "true" or "false". Over any run, every host call is a read
    of the key or of the media query, a toggle of the dark-mode class,
    or a write of "true" or "false" under the key: there is no
    [removeItem], no [clear], no write of another value or to another
    key. After the mount the record is always present with one of the
    two values, and the rest of storage is as the host had it. *)
Theorem stored_record_never_deleted (h : Host) (ops : list op) :
  Forall hookCall (log (sys_world (run h ops)))
  ∧ (localStorage (sys_world (run h ops)) !! darkModePrefLocalStorageKey = Some "true"
     ∨ localStorage (sys_world (run h ops)) !! darkModePrefLocalStorageKey = Some "false")
  ∧ delete darkModePrefLocalStorageKey (localStorage (sys_world (run h ops)))
    = delete darkModePrefLocalStorageKey (host_storage h).
Proof.
  destruct (run_inSync h ops) as (b & _ & _ & Hl).
  destruct (foldl_step_calls ops (mount h) (initialValue h))
    as (evs & Hlog & Hcalls & _ & Hdel); [apply mount_inSync|].
  fold (run h ops) in Hlog, Hdel. rewrite Hlog, Hdel, Hl, mount_eq.
  cbn [sys_world log localStorage]. split; [|split].
  - rewrite !Forall_app.
    auto using initEvents_hookCall, syncEvents_hookCall.
  - destruct b; [by left | by right].
  - apply delete_insert_eq.
Qed.

(** C7. The system preference signal is read at initialisation only.
    Two runs from the same browser that make the same calls of the
    component, with whatever changes of the system setting in between,
    agree on the in-memory value, on storage, on the class list and on
    the whole log of host calls; and the only media query in the log of
    a run is the one the initialiser made. *)
Theorem system_signal_read_at_initialisation_only
    (h : Host) (ops1 ops2 : list op) :
  componentOps ops1 = componentOps ops2 →
  observable (run h ops1) = observable (run h ops2)
  ∧ List.filter isMatchMedia (log (sys_world (run h ops1)))
    = List.filter isMatchMedia (initEvents (storedRecord h)).
Proof.
  intros Hops. pose proof (mount_inSync h) as (Hs & _). split.
  - unfold run.
    rewrite (foldl_componentOps ops1 _ (mount h) _ Hs eq_refl).
    rewrite (foldl_componentOps ops2 _ (mount h) _ Hs eq_refl).
    by rewrite Hops.
  - destruct (foldl_step_calls ops1 _ _ Hs) as (evs & Hlog & _ & Hmedia & _).
    fold (run h ops1) in Hlog. rewrite Hlog, mount_eq.
    cbn [sys_world log]. rewrite !List.filter_app, Hmedia.
    cbn [syncEvents List.filter isMatchMedia]. by rewrite !app_nil_r.
Qed.

Lemma system_signal_read_at_initialisation_only_witness :
  let ops1 := [SetIsDarkTheme (Value true);
               SystemPreferenceChange (λ _, true);
               SetIsDarkTheme (Updater negb)] in
  let ops2 := [SystemPreferenceChange (λ _, true);
               SetIsDarkTheme (Value true);
               SystemPreferenceChange (λ _, false);
               SetIsDarkTheme (Updater negb)] in
  componentOps ops1 = componentOps ops2
  ∧ observable (run hostFreshLight ops1) = observable (run hostFreshLight ops2)
  ∧ List.filter isMatchMedia (log (sys_world (run hostFreshLight ops1)))
    = List.filter isMatchMedia (initEvents (storedRecord hostFreshLight)).
Proof.
  intros ops1 ops2. split; [reflexivity|].
  apply (system_signal_read_at_initialisation_only hostFreshLight ops1 ops2).
  reflexivity.
Defined.


(** ** Beyond one step: what a run leaves behind *)

Section History.

Implicit Types (s : Sys) (b : bool) (h : Host).

Lemma toggled_classes (b b' : bool) (C : gset string) :
  (if b' then {[darkModeBodyClassName]} ∪
                (if b then {[darkModeBodyClassName]} ∪ C
                 else C ∖ {[darkModeBodyClassName]})
   else (if b then {[darkModeBodyClassName]} ∪ C
         else C ∖ {[darkModeBodyClassName]}) ∖ {[darkModeBodyClassName]})
  = (if b' then {[darkModeBodyClassName]} ∪ C
     else C ∖ {[darkModeBodyClassName]}).
Proof.
  apply set_eq. intros x.
  destruct (decide (x ∈ ({[darkModeBodyClassName]} : gset string))) as [Hx|Hx];
    destruct b, b';
    rewrite ?elem_of_union, ?elem_of_difference, ?elem_of_union,
      ?elem_of_difference; tauto.
Qed.

Lemma foldl_step_world (ops : list op) s b
    (H : gmap string string) (C : gset string) :
  settled b s →
  localStorage (sys_world s) = <[darkModePrefLocalStorageKey := encode b]> H →
  bodyClassList (sys_world s)
  = (if b then {[darkModeBodyClassName]} ∪ C else C ∖ {[darkModeBodyClassName]}) →
  ∃ b', settled b' (foldl step s ops)
    ∧ localStorage (sys_world (foldl step s ops))
      = <[darkModePrefLocalStorageKey := encode b']> H
    ∧ bodyClassList (sys_world (foldl step s ops))
      = (if b' then {[darkModeBodyClassName]} ∪ C
         else C ∖ {[darkModeBodyClassName]}).
Proof.
  revert s b. induction ops as [|o ops IH]; intros s b Hs Hst Hcl; simpl.
  - by exists b.
  - destruct (step_effects _ _ o Hs) as (b' & Hs' & Hst' & Hcl' & _).
    apply (IH _ b' Hs').
    + rewrite Hst'. case_bool_decide as Heq; [by rewrite Heq|].
      by rewrite Hst, insert_insert_eq.
    + rewrite Hcl'. case_bool_decide as Heq; [by rewrite Heq|].
      rewrite Hcl. apply toggled_classes.
Qed.

Lemma alternating_snoc (n : nat) (b0 b : bool) :
  last (alternating b0 (S n)) = Some b →
  alternating b0 (S (S n)) = alternating b0 (S n) ++ [negb b].
Proof.
  revert b0. induction n as [|n IH]; intros b0 Hlast.
  - simpl in *. by injection Hlast as ->.
  - change (alternating b0 (S (S (S n))))
      with (b0 :: alternating (negb b0) (S (S n))).
    rewrite (IH (negb b0)); [done|]. exact Hlast.
Qed.

Lemma foldl_step_writes (ops : list op) s b (b0 : bool) (n : nat) :
  settled b s →
  classToggles (log (sys_world s)) = alternating b0 (S n) →
  storageWrites (log (sys_world s)) = encode <$> alternating b0 (S n) →
  last (alternating b0 (S n)) = Some b →
  ∃ n' b', settled b' (foldl step s ops)
    ∧ classToggles (log (sys_world (foldl step s ops))) = alternating b0 (S n')
    ∧ storageWrites (log (sys_world (foldl step s ops)))
      = encode <$> alternating b0 (S n')
    ∧ last (alternating b0 (S n')) = Some b'.
Proof.
  revert s b n. induction ops as [|o ops IH]; intros s b n Hs Ht Hw Hlast.
  - by exists n, b.
  - destruct (step_effects _ _ o Hs) as (b' & Hs' & _ & _ & Hlog).
    cbn [foldl]. case_bool_decide as Heq.
    + subst b'. rewrite app_nil_r in Hlog.
      apply (IH _ b n Hs'); by rewrite ?Hlog.
    + assert (b' = negb b) as -> by (by destruct b, b').
      apply (IH _ (negb b) (S n) Hs').
      * unfold classToggles in *. rewrite Hlog, omap_app, Ht.
        by rewrite (alternating_snoc n b0 b).
      * unfold storageWrites in *. rewrite Hlog, omap_app, Hw.
        by rewrite (alternating_snoc n b0 b), fmap_app.
      * rewrite (alternating_snoc n b0 b) by done. apply last_snoc.
Qed.


End History.

(** X1. Storage and the class list after a run depend on the browser
    the hook was mounted in and on the current value only, not on the
    operations that led there: storage is the host's with the key set to
    the encoding of the value, and the class list is the host's with the
    dark-mode class added or removed; no other class is touched. *)
Theorem world_determined_by_current_value (h : Host) (ops : list op) :
  ∃ b, themePreference (run h ops) = Some b
    ∧ localStorage (sys_world (run h ops))
      = <[darkModePrefLocalStorageKey := encode b]> (host_storage h)
    ∧ bodyClassList (sys_world (run h ops))
      = (if b then {[darkModeBodyClassName]} ∪ host_classList h
         else host_classList h ∖ {[darkModeBodyClassName]}).
Proof.
  destruct (foldl_step_world ops (mount h) (initialValue h)
              (host_storage h) (host_classList h))
    as (b & Hs & Hst & Hcl); try (by rewrite mount_eq).
  exists b. unfold themePreference. fold (run h ops) in Hs, Hst, Hcl.
  by rewrite Hs.
Qed.

(** X2. What a later visit starts with: when a run has left the value
    [b], the hook mounted again on the storage it left starts with
    [b || d], where [d] is the system preference at that time. A dark
    choice survives a reload whatever the system setting; a light choice
    survives only under a light system setting. *)
Theorem preference_after_revisit (h : Host) (ops : list op)
    (classes : gset string) (media : string → bool) :
  ∃ b, themePreference (run h ops) = Some b
    ∧ initialValue (revisit (run h ops) classes media)
      = b || media "(prefers-color-scheme: dark)"
    ∧ themePreference (mount (revisit (run h ops) classes media))
      = Some (b || media "(prefers-color-scheme: dark)").
Proof.
  destruct (run_inSync h ops) as (b & Hs & _ & Hl). exists b.
  assert (Hinit : initialValue (revisit (run h ops) classes media)
                  = b || media "(prefers-color-scheme: dark)").
  { rewrite initialValue_eq. unfold storedRecord, revisit. cbn [host_storage].
    rewrite Hl. by destruct b. }
  unfold themePreference at 1. rewrite Hs. split; [done|]. split; [done|].
  rewrite mount_eq. unfold themePreference. cbn [sys_fiber memoizedState].
  by rewrite Hinit.
Qed.

Section Composition.

Implicit Types (s : Sys) (b : bool) (h : Host).


Lemma mount_history h :
  classToggles (log (sys_world (mount h))) = [initialValue h]
  ∧ storageWrites (log (sys_world (mount h))) = [encode (initialValue h)].
Proof.
  rewrite mount_eq. cbn [sys_world log]. unfold classToggles, storageWrites.
  rewrite !omap_app. unfold initEvents. by destruct (strict_eq _ _).
Qed.



End Composition.


(** X4. The effect runs once at the mount and then once for each change
    of the value, never for a value it has just written: over any run
    the forces passed to the class toggle, and the values written to
    storage, alternate, starting with the initial value and ending with
    the current one. *)
Theorem writes_alternate (h : Host) (ops : list op) :
  ∃ (n : nat) (b : bool),
    themePreference (run h ops) = Some b
    ∧ classToggles (log (sys_world (run h ops)))
      = alternating (initialValue h) (S n)
    ∧ storageWrites (log (sys_world (run h ops)))
      = encode <$> alternating (initialValue h) (S n)
    ∧ last (alternating (initialValue h) (S n)) = Some b.
Proof.
  destruct (mount_history h) as (Ht & Hw).
  destruct (foldl_step_writes ops (mount h) (initialValue h) (initialValue h) 0)
    as (n & b & Hs & Ht' & Hw' & Hlast); try done.
  { apply mount_inSync. }
  exists n, b. unfold themePreference. fold (run h ops) in Hs, Ht', Hw'.
  by rewrite Hs.
Qed.


(** X6. The effect overwrites without looking: whatever storage and
    the class list hold (another script may have changed them), a setter
    call that changes the value leaves the class on the body exactly
    when the new value is true and the key holding its encoding. A call
    that yields the current value repairs nothing: the state is left as
    it was. *)
Theorem value_change_resynchronises
    (b : bool) (w : World) (action : SetStateAction bool) :
  let s := mkSys (mkFiber (Some b) (Some [b])) w in
  let b' := basicStateReducer b action in
  (b' ≠ b →
     themePreference (step s (SetIsDarkTheme action)) = Some b'
     ∧ (darkModeBodyClassName ∈ bodyClassList (sys_world (step s (SetIsDarkTheme action)))
        ↔ b' = true)
     ∧ localStorage (sys_world (step s (SetIsDarkTheme action)))
         !! darkModePrefLocalStorageKey = Some (encode b'))
  ∧ (b' = b → step s (SetIsDarkTheme action) = s).
Proof.
  intros s b'. rewrite (step_set s b) by done. fold b'. split; intros Hb.
  - rewrite bool_decide_eq_false_2 by done.
    destruct (synced_inSync b' w) as (_ & Hc & Hl).
    split; [done|]. split; [exact Hc | exact Hl].
  - by rewrite bool_decide_eq_true_2.
Qed.

Lemma value_change_resynchronises_witness :
  let s := mkSys (mkFiber (Some true) (Some [true])) tamperedWorld in
  localStorage (sys_world (step s (SetIsDarkTheme (Value false))))
    !! darkModePrefLocalStorageKey = Some "false"
  ∧ step s (SetIsDarkTheme (Value true)) = s.
Proof.
  intros s. split.
  - apply (proj1 (value_change_resynchronises true tamperedWorld (Value false))).
    discriminate.
  - apply (proj2 (value_change_resynchronises true tamperedWorld (Value true))).
    reflexivity.
Defined.
